(** * Panic-recovery middleware of the auth module (x/auth/middleware/panic.go)

    A shallow embedding of [panicTxHandler], of its three entry points and
    of the recovery chain they resolve panics with.

    Go features and how they are rendered here:
    - a function that may panic is an [action]: it maps the state to an
      [outcome] (normal return or panic payload) and the state it leaves;
      state changes made before a panic persist, as the meters are mutated
      in place;
    - [defer] is the combinator [defer_]: deferred functions see the frame
      of the surrounding call (named results and the panic in flight), run
      on every exit path, innermost first, and a panic raised by a deferred
      function replaces the one in flight;
    - [recover()] reads and clears the panic in flight;
    - the [sdk.GasMeter] interface is the class [GasMeter]; its queries are
      pure functions of the meter, [ConsumeGas] changes it and may panic.

    A panic may carry the nil value ([panic(nil)], or [panic(err)] with a
    nil [err]).  The middleware is taken with the Go it was written for,
    before 1.21: there [recover()] stops such a panic like any other and
    returns nil for it, as it does when nothing is in flight.

    What is taken for granted: the context holds a transaction meter (the
    code expects an earlier stage to have set it), and a meter panics with
    a value, never with nil. *)

From Stdlib Require Import ZArith List String Ascii Bool Lia.
From Stdlib Require Import DecimalString.
Import ListNotations.
Open Scope Z_scope.
Open Scope string_scope.

(** ** Values *)

(** [sdk.Gas] is [uint64]. *)
Definition Gas := Z.
Definition MaxUint64 : Gas := 2 ^ 64 - 1.

(** The value given to [panic], an [interface{}].  The middleware tells
    payloads apart by a comparison with nil and by one type assertion, to
    [sdk.ErrorOutOfGas], and otherwise only prints them with the verb v; a
    non-nil payload of any other type is kept as that rendering. *)
Inductive payload : Type :=
| ErrorOutOfGas (Descriptor : string)
| ErrorGasOverflow (Descriptor : string)
| OtherPanic (rendering : string)
| NilValue.

(** Errors of [types/errors]: the two registered roots the file uses, and
    the wrapper built by [sdkerrors.Wrap].  A Go [error] that may be nil is
    an [option error]. *)
Inductive error : Type :=
| ErrOutOfGas
| ErrPanic
| wrappedError (parent : error) (msg : string).

Definition Wrap (err : option error) (description : string) : option error :=
  match err with
  | None => None
  | Some e => Some (wrappedError e description)
  end.

(** The registered error at the root of a chain of wrappers: its kind. *)
Fixpoint rootCause (e : error) : error :=
  match e with
  | wrappedError parent _ => rootCause parent
  | _ => e
  end.

Definition errMessage (e : error) : string :=
  match e with
  | wrappedError _ msg => msg
  | _ => ""
  end.

(** Rendering with the verbs of [fmt.Sprintf]. *)
Definition fmt_d (n : Z) : string := NilZero.string_of_int (Z.to_int n).

(** A struct with the single field [Descriptor] prints as that field in
    braces, the nil value as [<nil>]. *)
Definition fmt_v (obj : payload) : string :=
  match obj with
  | ErrorOutOfGas d => "{" ++ d ++ "}"
  | ErrorGasOverflow d => "{" ++ d ++ "}"
  | OtherPanic rendering => rendering
  | NilValue => "<nil>"
  end.

Definition newline : string := String (ascii_of_nat 10) EmptyString.

(** [contains s sub]: [sub] occurs in [s]. *)
Definition contains (s sub : string) : Prop :=
  exists pre post, s = pre ++ sub ++ post.

(** ** Computations that may panic *)

Inductive outcome (A : Type) : Type :=
| Returned (a : A)
| Panicked (r : payload).
Arguments Returned {A} a.
Arguments Panicked {A} r.

Definition action (St A : Type) : Type := St -> outcome A * St.

Definition ret {St A} (a : A) : action St A := fun s => (Returned a, s).

Definition bind {St A B} (m : action St A) (k : A -> action St B) : action St B :=
  fun s =>
    match m s with
    | (Returned a, s') => k a s'
    | (Panicked r, s') => (Panicked r, s')
    end.

Definition panic {St A} (r : payload) : action St A := fun s => (Panicked r, s).
Definition gets {St A} (f : St -> A) : action St A := fun s => (Returned (f s), s).
Definition modify {St} (f : St -> St) : action St unit := fun s => (Returned tt, f s).

Declare Scope action_scope.
Delimit Scope action_scope with action.
Notation "x <- m ;; k" := (bind m (fun x => k))
  (at level 61, m at next level, right associativity) : action_scope.
Notation "m ;;; k" := (bind m (fun _ => k))
  (at level 61, right associativity) : action_scope.
Open Scope action_scope.

(** ** The recovery chain *)

Section RecoveryChain.
Variable St : Type.

(** [type recoveryHandler func(recoveryObj interface{}) error] *)
Definition recoveryHandler : Type := payload -> action St (option error).

(** [type recoveryMiddleware func(recoveryObj interface{}) (recoveryMiddleware, error)];
    [nilMiddleware] is the nil function value. *)
#[warnings="-register-all"]
Inductive recoveryMiddleware : Type :=
| nilMiddleware
| middlewareFunc (f : payload -> St -> outcome (recoveryMiddleware * option error) * St).

Fixpoint processRecovery (recoveryObj : payload) (middleware : recoveryMiddleware)
  : action St (option error) :=
  match middleware with
  | nilMiddleware => ret None
  | middlewareFunc f =>
      fun s =>
        match f recoveryObj s with
        | (Returned (next, Some err), s') => (Returned (Some err), s')
        | (Returned (next, None), s') => processRecovery recoveryObj next s'
        | (Panicked r, s') => (Panicked r, s')
        end
  end.

Definition newRecoveryMiddleware (handler : recoveryHandler) (next : recoveryMiddleware)
  : recoveryMiddleware :=
  middlewareFunc (fun recoveryObj =>
    err <- handler recoveryObj;;
    match err with
    | Some e => ret (nilMiddleware, Some e)
    | None => ret (next, None)
    end).

(** The chain that applies the handlers of a list, head first. *)
Definition chainOf (handlers : list recoveryHandler) : recoveryMiddleware :=
  fold_right newRecoveryMiddleware nilMiddleware handlers.

End RecoveryChain.
Arguments nilMiddleware {St}.
Arguments middlewareFunc {St} f.
Arguments processRecovery {St} recoveryObj middleware.
Arguments newRecoveryMiddleware {St} handler next.
Arguments chainOf {St} handlers.

(** ** Gas meters and the context *)

(** The methods of [sdk.GasMeter] the middleware calls.  [ConsumeGas] gives
    the meter it leaves and the payload it panics with, if it panics; a
    meter panics with a fault value, not with nil. *)
Class GasMeter (M : Type) : Type := {
  Limit : M -> Gas;
  GasConsumed : M -> Gas;
  GasConsumedToLimit : M -> Gas;
  IsOutOfGas : M -> bool;
  ConsumeGas : Gas -> string -> M -> M * option payload;
  ConsumeGas_fault : forall amount descriptor m,
      snd (ConsumeGas amount descriptor m) <> Some NilValue
}.

(** What Go code reaches through [sdk.Context] and the runtime: the
    transaction meter, the block meter, the text [debug.Stack()] would
    return, and the rest of the application state. *)
Record World (TM BM App : Type) : Type := {
  gasMeter : TM;
  blockGasMeter : BM;
  debugStack : string;
  app : App
}.
Arguments gasMeter {TM BM App} w.
Arguments blockGasMeter {TM BM App} w.
Arguments debugStack {TM BM App} w.
Arguments app {TM BM App} w.

Definition withBlockGasMeter {TM BM App} (w : World TM BM App) (m : BM) : World TM BM App :=
  {| gasMeter := gasMeter w; blockGasMeter := m;
     debugStack := debugStack w; app := app w |}.

(** Calls the middleware makes, in program order.  The history is ghost
    state: it is only ever appended to, and no function reads it. *)
Inductive event : Type :=
| CallInner
| BlockConsumeGas (amount : Gas) (descriptor : string)
| Recovered (r : payload).

Record State (TM BM App : Type) : Type := {
  world : World TM BM App;
  history : list event
}.
Arguments world {TM BM App} s.
Arguments history {TM BM App} s.

(** ** Frames and deferred functions *)

(** The named results of a call and the panic in flight. *)
Record frame (Res : Type) : Type := {
  res : Res;
  err : option error;
  panicking : option payload
}.
Arguments res {Res} f.
Arguments err {Res} f.
Arguments panicking {Res} f.

(** A deferred function runs on the frame and the state. *)
Definition deferred (St Res : Type) : Type := action (frame Res * St) unit.

Definition lift {St Res A} (m : action St A) : action (frame Res * St) A :=
  fun fs =>
    match m (snd fs) with
    | (o, s') => (o, (fst fs, s'))
    end.

(** [recover()]: the value of the panic in flight, which it stops, or nil
    when there is none. *)
Definition recover {St Res} : action (frame Res * St) payload :=
  fun fs =>
    (Returned (match panicking (fst fs) with
               | Some r => r
               | None => NilValue
               end),
     ({| res := res (fst fs); err := err (fst fs); panicking := None |}, snd fs)).

(** assignment to the named result [err] *)
Definition setErr {St Res} (e : option error) : action (frame Res * St) unit :=
  modify (fun fs => ({| res := res (fst fs); err := e; panicking := panicking (fst fs) |}, snd fs)).

(** The body up to its [return] statement or its panic; the named results
    start at their zero values. *)
Definition enter {St Res} (zero : Res) (body : action St (Res * option error))
  : St -> frame Res * St :=
  fun s =>
    match body s with
    | (Returned (r, e), s') => ({| res := r; err := e; panicking := None |}, s')
    | (Panicked p, s') => ({| res := zero; err := None; panicking := Some p |}, s')
    end.

(** [defer d] registered before [scope] runs. *)
Definition defer_ {St Res} (d : deferred St Res) (scope : St -> frame Res * St)
  : St -> frame Res * St :=
  fun s =>
    match d (scope s) with
    | (Returned _, fs) => fs
    | (Panicked p, (fr, s')) => ({| res := res fr; err := err fr; panicking := Some p |}, s')
    end.

(** Leaving the call once every deferred function has run. *)
Definition leave {St Res} (scope : St -> frame Res * St) : action St (Res * option error) :=
  fun s =>
    match scope s with
    | (fr, s') =>
        match panicking fr with
        | Some p => (Panicked p, s')
        | None => (Returned (res fr, err fr), s')
        end
    end.

(** ** The transaction handler interface *)

(** The types of [sdk.Tx] and of the requests and responses; each response
    type has its zero value. *)
Class ABCI : Type := {
  Tx : Type;
  RequestCheckTx : Type;
  ResponseCheckTx : Type;
  RequestDeliverTx : Type;
  ResponseDeliverTx : Type;
  RequestSimulateTx : Type;
  ResponseSimulateTx : Type;
  zeroResponseCheckTx : ResponseCheckTx;
  zeroResponseDeliverTx : ResponseDeliverTx;
  zeroResponseSimulateTx : ResponseSimulateTx
}.

Section Middleware.
Context {TM BM App : Type} {txMeter : GasMeter TM} {blockMeter : GasMeter BM} {abci : ABCI}.

Local Abbreviation world_t := (World TM BM App).
Local Abbreviation state_t := (State TM BM App).

(** [tx.TxHandler]: the wrapped handler works on the context it is given;
    it may do anything to both meters, return an error or panic. *)
Record TxHandler : Type := {
  hCheckTx : Tx -> RequestCheckTx -> action world_t (ResponseCheckTx * option error);
  hDeliverTx : Tx -> RequestDeliverTx -> action world_t (ResponseDeliverTx * option error);
  hSimulateTx : Tx -> RequestSimulateTx -> action world_t (ResponseSimulateTx * option error)
}.

Record panicTxHandler : Type := { inner : TxHandler }.

Definition NewPanicTxMiddleware (txh : TxHandler) : panicTxHandler :=
  {| inner := txh |}.

Definition emit (e : event) : action state_t unit :=
  modify (fun s => {| world := world s; history := history s ++ [e] |}).

(** A call of a method of [txh.inner]. *)
Definition callInner {A} (m : action world_t A) : action state_t A :=
  fun s =>
    match m (world s) with
    | (o, w') => (o, {| world := w'; history := history s ++ [CallInner] |})
    end.

(** [sdkCtx.BlockGasMeter().ConsumeGas(amount, descriptor)] *)
Definition blockConsumeGas (amount : Gas) (descriptor : string) : action state_t unit :=
  fun s =>
    match ConsumeGas amount descriptor (blockGasMeter (world s)) with
    | (m', p) =>
        let s' := {| world := withBlockGasMeter (world s) m';
                     history := history s ++ [BlockConsumeGas amount descriptor] |} in
        match p with
        | Some r => (Panicked r, s')
        | None => (Returned tt, s')
        end
    end.

(** ** Standard recovery middlewares *)

Definition newOutOfGasRecoveryMiddleware (gasWanted : Gas) (next : recoveryMiddleware state_t)
  : recoveryMiddleware state_t :=
  let handler : recoveryHandler state_t := fun recoveryObj =>
    match recoveryObj with
    | ErrorOutOfGas descriptor =>
        gasUsed <- gets (fun s => GasConsumed (gasMeter (world s)));;
        ret (Wrap (Some ErrOutOfGas)
               ("out of gas in location: " ++ descriptor
                ++ "; gasWanted: " ++ fmt_d gasWanted
                ++ ", gasUsed: " ++ fmt_d gasUsed))
    | _ => ret None
    end in
  newRecoveryMiddleware handler next.

Definition newDefaultRecoveryMiddleware : recoveryMiddleware state_t :=
  let handler : recoveryHandler state_t := fun recoveryObj =>
    stack <- gets (fun s => debugStack (world s));;
    ret (Wrap (Some ErrPanic)
           ("recovered: " ++ fmt_v recoveryObj ++ newline
            ++ "stack:" ++ newline ++ stack)) in
  newRecoveryMiddleware handler nilMiddleware.

(** ** Entry points *)

(** The deferred function shared by the three entry points. *)
Definition recoverPanic {Res} : deferred state_t Res :=
  gasWanted <- lift (gets (fun s => Limit (gasMeter (world s))));;
  r <- recover;;
  match r with
  | NilValue => ret tt
  | _ =>
      lift (emit (Recovered r));;;
      let recoveryMW := newOutOfGasRecoveryMiddleware gasWanted newDefaultRecoveryMiddleware in
      e <- lift (processRecovery r recoveryMW);;
      setErr e
  end.

(** The second deferred function of [DeliverTx]. *)
Definition consumeBlockGas {Res} (startingGas : Gas) : deferred state_t Res :=
  amount <- lift (gets (fun s => GasConsumedToLimit (gasMeter (world s))));;
  lift (blockConsumeGas amount "block gas meter");;;
  consumed <- lift (gets (fun s => GasConsumed (blockGasMeter (world s))));;
  if (consumed <? startingGas)%Z
  then panic (ErrorGasOverflow "tx gas summation")
  else ret tt.

Definition CheckTx (txh : panicTxHandler) (tx : Tx) (req : RequestCheckTx)
  : action state_t (ResponseCheckTx * option error) :=
  leave (defer_ recoverPanic
          (enter zeroResponseCheckTx (callInner (hCheckTx (inner txh) tx req)))).

Definition DeliverTx (txh : panicTxHandler) (tx : Tx) (req : RequestDeliverTx)
  : action state_t (ResponseDeliverTx * option error) :=
  fun s =>
    if IsOutOfGas (blockGasMeter (world s)) then
      (Returned (zeroResponseDeliverTx,
                 Wrap (Some ErrOutOfGas) "no block gas left to run tx"), s)
    else
      let startingGas := GasConsumed (blockGasMeter (world s)) in
      leave (defer_ recoverPanic
              (defer_ (consumeBlockGas startingGas)
                (enter zeroResponseDeliverTx
                   (callInner (hDeliverTx (inner txh) tx req))))) s.

Definition SimulateTx (txh : panicTxHandler) (sdkTx : Tx) (req : RequestSimulateTx)
  : action state_t (ResponseSimulateTx * option error) :=
  leave (defer_ recoverPanic
          (enter zeroResponseSimulateTx (callInner (hSimulateTx (inner txh) sdkTx req)))).

End Middleware.

(** ** Meters and handlers for concrete runs *)

(** Modelled from the spec: the resource meter behind [sdk.GasMeter], whose
    implementation is not among the sources.  It has a limit fixed at
    creation and a consumed counter that never decreases; consumed-to-limit
    is the counter capped at the limit; consume adds to the counter and
    raises the out-of-budget fault once the counter is past the limit.  The
    counter is a [uint64]: a sum that does not fit leaves it at the largest
    value and raises the overflow fault. *)
Record basicGasMeter : Type := {
  limit : Gas;
  consumed : Gas
}.

Definition basicConsumeGas (amount : Gas) (descriptor : string) (g : basicGasMeter)
  : basicGasMeter * option payload :=
  let sum := (consumed g + amount)%Z in
  if (MaxUint64 <? sum)%Z then
    ({| limit := limit g; consumed := MaxUint64 |}, Some (ErrorGasOverflow descriptor))
  else
    ({| limit := limit g; consumed := sum |},
     if (limit g <? sum)%Z then Some (ErrorOutOfGas descriptor) else None).

#[export, refine] Instance basicGasMeter_GasMeter : GasMeter basicGasMeter := {
  Limit g := limit g;
  GasConsumed g := consumed g;
  GasConsumedToLimit g := Z.min (consumed g) (limit g);
  IsOutOfGas g := (limit g <=? consumed g)%Z;
  ConsumeGas := basicConsumeGas
}.
Proof.
  intros amount descriptor g. unfold basicConsumeGas.
  destruct (MaxUint64 <? consumed g + amount)%Z; simpl; [discriminate |].
  destruct (limit g <? consumed g + amount)%Z; discriminate.
Defined.

(** A test double for the block meter: its counter is a [uint64] added to
    without any check, so that a large charge makes it go backwards. *)
Record uncheckedGasMeter : Type := { counter : Gas }.

#[export, refine] Instance uncheckedGasMeter_GasMeter : GasMeter uncheckedGasMeter := {
  Limit _ := 0%Z;
  GasConsumed g := counter g;
  GasConsumedToLimit g := counter g;
  IsOutOfGas _ := false;
  ConsumeGas amount _ g := ({| counter := ((counter g + amount) mod 2 ^ 64)%Z |}, None)
}.
Proof. intros amount descriptor g. discriminate. Defined.

(** Requests, responses and transactions as plain text. *)
Definition textABCI : ABCI := {|
  Tx := string;
  RequestCheckTx := string;
  ResponseCheckTx := string;
  RequestDeliverTx := string;
  ResponseDeliverTx := string;
  RequestSimulateTx := string;
  ResponseSimulateTx := string;
  zeroResponseCheckTx := "";
  zeroResponseDeliverTx := "";
  zeroResponseSimulateTx := ""
|}.

Section Stubs.
Context {TM BM : Type} {txMeter : GasMeter TM} {blockMeter : GasMeter BM}.

(** [ctx.GasMeter().ConsumeGas(amount, descriptor)] inside a handler. *)
Definition txConsumeGas (amount : Gas) (descriptor : string) : action (World TM BM nat) unit :=
  fun w =>
    match ConsumeGas amount descriptor (gasMeter w) with
    | (m', p) =>
        let w' := {| gasMeter := m'; blockGasMeter := blockGasMeter w;
                     debugStack := debugStack w; app := app w |} in
        match p with
        | Some r => (Panicked r, w')
        | None => (Returned tt, w')
        end
    end.

(** The application state of the stubs counts the calls they receive. *)
Definition countCall : action (World TM BM nat) unit :=
  modify (fun w => {| gasMeter := gasMeter w; blockGasMeter := blockGasMeter w;
                      debugStack := debugStack w; app := S (app w) |}).

(** A stub that counts the call, consumes [amount] of transaction gas
    and then returns [response] with a nil error, or panics with [fault]. *)
Definition stubRun (amount : Gas) (fault : option payload) (response : string)
  : action (World TM BM nat) (string * option error) :=
  countCall;;;
  txConsumeGas amount "stub";;;
  match fault with
  | Some r => panic r
  | None => ret (response, None)
  end.

Definition stubHandler (amount : Gas) (fault : option payload) (response : string)
  : @TxHandler TM BM nat textABCI :=
  @Build_TxHandler TM BM nat textABCI
    (fun _ _ => stubRun amount fault response)
    (fun _ _ => stubRun amount fault response)
    (fun _ _ => stubRun amount fault response).

Definition stubTxHandler (amount : Gas) (fault : option payload) (response : string)
  : @panicTxHandler TM BM nat textABCI :=
  NewPanicTxMiddleware (stubHandler amount fault response).

End Stubs.

Definition initState {TM BM} (tm : TM) (bm : BM) : State TM BM nat :=
  {| world := {| gasMeter := tm; blockGasMeter := bm; debugStack := "goroutine 1 [running]"; app := O |};
     history := [] |}.

(** ** Reference descriptions used in the statements *)

Section Reference.
Context {TM BM App : Type} {txMeter : GasMeter TM} {blockMeter : GasMeter BM}.

(** The error the standard chain (out-of-gas middleware, then default
    middleware) gives for a payload, read off the two handlers. *)
Definition outOfGasError (descriptor : string) (gasWanted gasUsed : Gas) : error :=
  wrappedError ErrOutOfGas
    ("out of gas in location: " ++ descriptor
     ++ "; gasWanted: " ++ fmt_d gasWanted
     ++ ", gasUsed: " ++ fmt_d gasUsed).

Definition panicError (obj : payload) (stack : string) : error :=
  wrappedError ErrPanic
    ("recovered: " ++ fmt_v obj ++ newline ++ "stack:" ++ newline ++ stack).

Definition standardError (obj : payload) (w : World TM BM App) : error :=
  match obj with
  | ErrorOutOfGas descriptor =>
      outOfGasError descriptor (Limit (gasMeter w)) (GasConsumed (gasMeter w))
  | _ => panicError obj (debugStack w)
  end.

(** The world the reconciliation step of [DeliverTx] leaves and the panic
    it raises, if any, when it starts in [w]. *)
Definition reconciled (w : World TM BM App) : World TM BM App :=
  withBlockGasMeter w
    (fst (ConsumeGas (GasConsumedToLimit (gasMeter w)) "block gas meter" (blockGasMeter w))).

Definition reconciliationFault (startingGas : Gas) (w : World TM BM App) : option payload :=
  match snd (ConsumeGas (GasConsumedToLimit (gasMeter w)) "block gas meter" (blockGasMeter w)) with
  | Some r => Some r
  | None =>
      if (GasConsumed (blockGasMeter (reconciled w)) <? startingGas)%Z
      then Some (ErrorGasOverflow "tx gas summation")
      else None
  end.

(** The panic the test [r != nil] on the value of [recover()] sees: a panic
    with the nil value is not told apart from no panic. *)
Definition caught (p : option payload) : option payload :=
  match p with
  | Some NilValue => None
  | _ => p
  end.

(** The panic in flight after the handler's exit. *)
Definition faultOf {A} (o : outcome A) : option payload :=
  match o with
  | Returned _ => None
  | Panicked r => Some r
  end.

(** The named results once the body has returned or panicked. *)
Definition resultsOf {Res} (zero : Res) (o : outcome (Res * option error)) : Res * option error :=
  match o with
  | Returned v => v
  | Panicked _ => (zero, None)
  end.

Definition isBlockConsumeGas (e : event) : bool :=
  match e with
  | BlockConsumeGas _ _ => true
  | _ => false
  end.

(** The state with world [w] and [events] added to the history of [s]. *)
Definition noted (s : State TM BM App) (w : World TM BM App) (events : list event)
  : State TM BM App :=
  {| world := w; history := (history s ++ events)%list |}.

(** The state [s] with another block meter. *)
Definition withBlock (s : State TM BM App) (m : BM) : State TM BM App :=
  {| world := withBlockGasMeter (world s) m; history := history s |}.

(** The events added to the history between the states [s] and [s']. *)
Definition added (s s' : State TM BM App) : list event :=
  skipn (List.length (history s)) (history s').

End Reference.

Section ChainReference.
Variable St : Type.

(** Resolution in the spec's words: the handlers of an ordered list are
    tried in order, stopping at the first that gives a non-nil error. *)
Fixpoint resolveInOrder (recoveryObj : payload) (handlers : list (recoveryHandler St))
  : action St (option error) :=
  match handlers with
  | [] => ret None
  | handler :: rest =>
      fun s =>
        match handler recoveryObj s with
        | (Returned (Some e), s') => (Returned (Some e), s')
        | (Returned None, s') => resolveInOrder recoveryObj rest s'
        | (Panicked r, s') => (Panicked r, s')
        end
  end.

End ChainReference.
Arguments resolveInOrder {St} recoveryObj handlers.

(** Call-counting handlers: the state is the list of the numbers of the
    handlers invoked so far; handler [i] notes [i] and then answers. *)
Definition countingHandler (i : nat) (answer : payload -> option error)
  : recoveryHandler (list nat) :=
  fun recoveryObj =>
    modify (fun calls => calls ++ [i])%list;;;
    ret (answer recoveryObj).

Fixpoint countingHandlers (i : nat) (answers : list (payload -> option error))
  : list (recoveryHandler (list nat)) :=
  match answers with
  | [] => []
  | answer :: rest => countingHandler i answer :: countingHandlers (S i) rest
  end.

(** The first non-nil answer, and how many handlers are asked to get it. *)
Fixpoint firstError (recoveryObj : payload) (answers : list (payload -> option error))
  : option error :=
  match answers with
  | [] => None
  | answer :: rest =>
      match answer recoveryObj with
      | Some e => Some e
      | None => firstError recoveryObj rest
      end
  end.

Fixpoint asked (recoveryObj : payload) (answers : list (payload -> option error)) : nat :=
  match answers with
  | [] => O
  | answer :: rest =>
      match answer recoveryObj with
      | Some _ => 1%nat
      | None => S (asked recoveryObj rest)
      end
  end.

(** ** Events of one kind *)

Definition isCallInner (e : event) : bool :=
  match e with
  | CallInner => true
  | _ => false
  end.

Definition isRecovered (e : event) : bool :=
  match e with
  | Recovered _ => true
  | _ => false
  end.

(** A handler that returns what it is told, error included, without
    touching the world. *)
Definition answering {TM BM : Type} (response : string) (failure : option error)
  : @TxHandler TM BM nat textABCI :=
  @Build_TxHandler TM BM nat textABCI
    (fun _ _ => ret (response, failure))
    (fun _ _ => ret (response, failure))
    (fun _ _ => ret (response, failure)).

(** * Properties *)

(** ** Strings *)

Lemma append_assoc (a b c : string) : (a ++ b) ++ c = a ++ (b ++ c).
Proof.
  induction a as [| ch a IH]; simpl; [reflexivity | now rewrite IH].
Qed.

Lemma contains_middle (pre sub post : string) : contains (pre ++ sub ++ post) sub.
Proof. now exists pre, post. Qed.

Lemma append_empty (a : string) : a ++ "" = a.
Proof.
  induction a as [| ch a IH]; simpl; [reflexivity | now rewrite IH].
Qed.

Lemma contains_end (pre sub : string) : contains (pre ++ sub) sub.
Proof. exists pre, "". now rewrite append_empty. Qed.

(** ** The meter of the concrete runs *)

(** It meets the two facts about meters that the charge of the block meter
    relies on, the second as long as the sum fits a [uint64]. *)
Lemma basicGasMeter_capped (g : basicGasMeter) :
  GasConsumedToLimit g = Z.min (GasConsumed g) (Limit g).
Proof. reflexivity. Qed.

Lemma basicGasMeter_adds (amount : Gas) (descriptor : string) (g : basicGasMeter) :
  (consumed g + amount <= MaxUint64)%Z ->
  GasConsumed (fst (ConsumeGas amount descriptor g)) = (GasConsumed g + amount)%Z
  /\ Limit (fst (ConsumeGas amount descriptor g)) = Limit g.
Proof.
  intros Hfits. simpl. unfold basicConsumeGas.
  destruct (MaxUint64 <? consumed g + amount)%Z eqn:E.
  - apply Z.ltb_lt in E. lia.
  - split; reflexivity.
Qed.

(** ** The entry points as equations *)

Section EntryPoints.
Context {TM BM App : Type} {txMeter : GasMeter TM} {blockMeter : GasMeter BM} {abci : ABCI}.

Local Abbreviation state_t := (State TM BM App).

Lemma standard_chain_resolves (gasWanted : Gas) (r : payload) (s : state_t) :
  processRecovery r (newOutOfGasRecoveryMiddleware gasWanted newDefaultRecoveryMiddleware) s
  = (Returned (Some (match r with
                     | ErrorOutOfGas d =>
                         outOfGasError d gasWanted (GasConsumed (gasMeter (world s)))
                     | _ => panicError r (debugStack (world s))
                     end)), s).
Proof. destruct r; reflexivity. Qed.

(** Leaving a call whose outermost deferred function is [recoverPanic]:
    a panic in flight is stopped, and becomes the error result unless its
    value is nil. *)
Lemma leave_recoverPanic {Res} (scope : state_t -> frame Res * state_t) (s : state_t) :
  leave (defer_ recoverPanic scope) s
  = match caught (panicking (fst (scope s))) with
    | None => (Returned (res (fst (scope s)), err (fst (scope s))), snd (scope s))
    | Some r =>
        (Returned (res (fst (scope s)),
                   Some (standardError r (world (snd (scope s))))),
         noted (snd (scope s)) (world (snd (scope s))) [Recovered r])
    end.
Proof.
  unfold leave, defer_.
  destruct (scope s) as [[rs e p] s1].
  destruct p as [r |]; [destruct r |]; reflexivity.
Qed.

Lemma enter_callInner {Res} (zero : Res) (h : action (World TM BM App) (Res * option error))
      (s : state_t) :
  enter zero (callInner h) s
  = ({| res := fst (resultsOf zero (fst (h (world s))));
        err := snd (resultsOf zero (fst (h (world s))));
        panicking := faultOf (fst (h (world s))) |},
     noted s (snd (h (world s))) [CallInner]).
Proof.
  unfold enter, callInner, noted.
  destruct (h (world s)) as [[[r e] | p] w']; reflexivity.
Qed.

Lemma noted_noted (s : state_t) (w w' : World TM BM App) (e e' : list event) :
  noted (noted s w e) w' e' = noted s w' (e ++ e').
Proof. unfold noted; simpl. now rewrite <- app_assoc. Qed.

(** [CheckTx] and [SimulateTx] have one shape. *)
Lemma guarded_call {Res} (zero : Res) (h : action (World TM BM App) (Res * option error))
      (s : state_t) :
  leave (defer_ recoverPanic (enter zero (callInner h))) s
  = match h (world s) with
    | (Returned v, w') => (Returned v, noted s w' [CallInner])
    | (Panicked NilValue, w') => (Returned (zero, None), noted s w' [CallInner])
    | (Panicked r, w') =>
        (Returned (zero, Some (standardError r w')), noted s w' [CallInner; Recovered r])
    end.
Proof.
  rewrite leave_recoverPanic, enter_callInner; simpl.
  destruct (h (world s)) as [[[r e] | p] w']; simpl.
  - reflexivity.
  - destruct p; simpl; now rewrite ?noted_noted.
Qed.

(** The reconciliation step on a frame. *)
Lemma defer_consumeBlockGas {Res} (startingGas : Gas)
      (scope : state_t -> frame Res * state_t) (s : state_t) :
  defer_ (consumeBlockGas startingGas) scope s
  = let fr := fst (scope s) in
    let s1 := snd (scope s) in
    ({| res := res fr; err := err fr;
        panicking := match reconciliationFault startingGas (world s1) with
                     | Some r => Some r
                     | None => panicking fr
                     end |},
     noted s1 (reconciled (world s1))
       [BlockConsumeGas (GasConsumedToLimit (gasMeter (world s1))) "block gas meter"]).
Proof.
  unfold defer_, consumeBlockGas, reconciliationFault, reconciled, noted.
  destruct (scope s) as [[rs e p] s1]; simpl.
  unfold bind, lift, gets, blockConsumeGas; simpl.
  destruct (ConsumeGas (GasConsumedToLimit (gasMeter (world s1))) "block gas meter"
              (blockGasMeter (world s1))) as [m' [r |]]; simpl.
  - reflexivity.
  - destruct (GasConsumed m' <? startingGas)%Z; reflexivity.
Qed.

(** [DeliverTx] past the pre-check, outcome by outcome. *)
Lemma DeliverTx_runs (txh : panicTxHandler) (tx : Tx) (req : RequestDeliverTx) (s : state_t) :
  IsOutOfGas (blockGasMeter (world s)) = false ->
  DeliverTx txh tx req s
  = let o := fst (hDeliverTx (inner txh) tx req (world s)) in
    let w1 := snd (hDeliverTx (inner txh) tx req (world s)) in
    let charge := BlockConsumeGas (GasConsumedToLimit (gasMeter w1)) "block gas meter" in
    match caught (match reconciliationFault (GasConsumed (blockGasMeter (world s))) w1 with
                  | Some r => Some r
                  | None => faultOf o
                  end) with
    | Some r =>
        (Returned (fst (resultsOf zeroResponseDeliverTx o),
                   Some (standardError r (reconciled w1))),
         noted s (reconciled w1) [CallInner; charge; Recovered r])
    | None =>
        (Returned (resultsOf zeroResponseDeliverTx o),
         noted s (reconciled w1) [CallInner; charge])
    end.
Proof.
  intros Hgas. unfold DeliverTx. rewrite Hgas.
  rewrite leave_recoverPanic, defer_consumeBlockGas, enter_callInner; simpl.
  destruct (hDeliverTx (inner txh) tx req (world s)) as [o w1]; simpl.
  destruct (reconciliationFault (GasConsumed (blockGasMeter (world s))) w1) as [r |];
    [destruct r |]; destruct o as [[rs e] | []]; simpl; now rewrite ?noted_noted.
Qed.

(** The reconciliation step does not panic with nil: the charge panics
    with a fault of the meter, the check with [ErrorGasOverflow]. *)
Lemma reconciliationFault_value (startingGas : Gas) (w : World TM BM App) :
  reconciliationFault startingGas w <> Some NilValue.
Proof.
  unfold reconciliationFault.
  pose proof (ConsumeGas_fault (GasConsumedToLimit (gasMeter w)) "block gas meter"
                (blockGasMeter w)) as Hfault.
  destruct (snd (ConsumeGas _ _ _)) as [r |].
  - exact Hfault.
  - destruct (_ <? _)%Z; discriminate.
Qed.

Lemma caught_value (r : payload) : r <> NilValue -> caught (Some r) = Some r.
Proof. destruct r; intros H; [reflexivity .. | now elim H]. Qed.

Lemma DeliverTx_short_circuit (txh : panicTxHandler) (tx : Tx) (req : RequestDeliverTx)
      (s : state_t) :
  IsOutOfGas (blockGasMeter (world s)) = true ->
  DeliverTx txh tx req s
  = (Returned (zeroResponseDeliverTx,
               Some (wrappedError ErrOutOfGas "no block gas left to run tx")), s).
Proof. intros Hgas. unfold DeliverTx. now rewrite Hgas. Qed.

(** The history is ghost state: an entry point started with another
    history does the same and adds the same events. *)
Lemma guarded_call_history {Res} (zero : Res)
      (h : action (World TM BM App) (Res * option error))
      (w : World TM BM App) (past : list event) :
  let run := leave (defer_ recoverPanic (enter zero (callInner h)))
               {| world := w; history := [] |} in
  leave (defer_ recoverPanic (enter zero (callInner h))) {| world := w; history := past |}
  = (fst run, {| world := world (snd run); history := (past ++ history (snd run))%list |}).
Proof.
  cbv zeta. rewrite !guarded_call. simpl.
  destruct (h w) as [[v | []] w']; reflexivity.
Qed.

Lemma DeliverTx_history (txh : panicTxHandler) (tx : Tx) (req : RequestDeliverTx)
      (w : World TM BM App) (past : list event) :
  let run := DeliverTx txh tx req {| world := w; history := [] |} in
  DeliverTx txh tx req {| world := w; history := past |}
  = (fst run, {| world := world (snd run); history := (past ++ history (snd run))%list |}).
Proof.
  cbv zeta. destruct (IsOutOfGas (blockGasMeter w)) eqn:Hgas.
  - rewrite !DeliverTx_short_circuit by assumption. simpl. now rewrite app_nil_r.
  - rewrite !DeliverTx_runs by assumption. simpl.
    destruct (caught _) as [r' |]; reflexivity.
Qed.

End EntryPoints.

(** ** The claims about the entry points *)

Section Containment.
Context {TM BM App : Type} {txMeter : GasMeter TM} {blockMeter : GasMeter BM} {abci : ABCI}.

Local Abbreviation state_t := (State TM BM App).



(** C7.  When the block meter reports out of gas at the call, [DeliverTx]
    returns at once the zero response and the error wrapping [ErrOutOfGas]
    with the message "no block gas left to run tx"; the state is the one it
    was called in, history included: the wrapped handler, which would have
    been noted in the history and could have changed the world, is not
    called, and the result is the same for every wrapped handler. *)
Theorem DeliverTx_no_block_gas_skips_handler
        (txh : panicTxHandler) (tx : Tx) (req : RequestDeliverTx) (s : state_t) :
  IsOutOfGas (blockGasMeter (world s)) = true ->
  DeliverTx txh tx req s
  = (Returned (zeroResponseDeliverTx,
               Some (wrappedError ErrOutOfGas "no block gas left to run tx")), s)
  /\ ~ In CallInner (added s (snd (DeliverTx txh tx req s)))
  /\ forall txh', DeliverTx txh' tx req s = DeliverTx txh tx req s.
Proof.
  intros Hgas. split; [| split].
  - now apply DeliverTx_short_circuit.
  - rewrite DeliverTx_short_circuit by assumption. unfold added. simpl.
    rewrite skipn_all. intros [].
  - intros txh'. now rewrite !DeliverTx_short_circuit by assumption.
Qed.

(** C10.  When [DeliverTx] stops at the block-gas check, the world it leaves
    is the world it was given, so the block meter and the transaction meter
    are unchanged, and nothing is added to the history: no gas is charged
    to the block meter for the skipped transaction. *)
Theorem DeliverTx_no_block_gas_charges_nothing
        (txh : panicTxHandler) (tx : Tx) (req : RequestDeliverTx) (s : state_t) :
  IsOutOfGas (blockGasMeter (world s)) = true ->
  let s' := snd (DeliverTx txh tx req s) in
  world s' = world s
  /\ blockGasMeter (world s') = blockGasMeter (world s)
  /\ gasMeter (world s') = gasMeter (world s)
  /\ history s' = history s
  /\ filter isBlockConsumeGas (added s s') = [].
Proof.
  intros Hgas s'. subst s'.
  rewrite DeliverTx_short_circuit by assumption. unfold added. simpl.
  rewrite skipn_all. auto.
Qed.

(** C2.  Past the block-gas check, when the wrapped handler returns, the
    block meter ends with the consumed amount it had at the handler's
    return plus min(consumed, limit) of the transaction meter, and so with
    that much more than at the call when the handler left the block meter
    alone.  The two meter primitives are taken to do at this call what the
    data model says: consumed-to-limit is the consumed amount capped at the
    limit, and consume adds the amount to the counter. *)
Theorem DeliverTx_charges_block_meter
        (txh : panicTxHandler) (tx : Tx) (req : RequestDeliverTx) (s : state_t)
        (v : ResponseDeliverTx * option error) (w1 : World TM BM App) :
  IsOutOfGas (blockGasMeter (world s)) = false ->
  hDeliverTx (inner txh) tx req (world s) = (Returned v, w1) ->
  GasConsumedToLimit (gasMeter w1) = Z.min (GasConsumed (gasMeter w1)) (Limit (gasMeter w1)) ->
  GasConsumed (fst (ConsumeGas (GasConsumedToLimit (gasMeter w1)) "block gas meter"
                      (blockGasMeter w1)))
  = (GasConsumed (blockGasMeter w1) + GasConsumedToLimit (gasMeter w1))%Z ->
  let s' := snd (DeliverTx txh tx req s) in
  GasConsumed (blockGasMeter (world s'))
  = (GasConsumed (blockGasMeter w1)
     + Z.min (GasConsumed (gasMeter w1)) (Limit (gasMeter w1)))%Z
  /\ (blockGasMeter w1 = blockGasMeter (world s) ->
      GasConsumed (blockGasMeter (world s'))
      = (GasConsumed (blockGasMeter (world s))
         + Z.min (GasConsumed (gasMeter w1)) (Limit (gasMeter w1)))%Z)
  /\ gasMeter (world s') = gasMeter w1.
Proof.
  intros Hgas Hh Hcap Hadd s'.
  assert (Hw : world s' = reconciled w1).
  { subst s'. rewrite DeliverTx_runs by assumption. cbv zeta. rewrite Hh. simpl.
    destruct (caught _); reflexivity. }
  rewrite Hw. unfold reconciled at 1 2. simpl.
  rewrite Hadd, Hcap. split; [reflexivity | split].
  - intros Hb. now rewrite Hb.
  - reflexivity.
Qed.

Lemma added_noted (s : state_t) (w : World TM BM App) (events : list event) :
  added s (noted s w events) = events.
Proof.
  unfold added, noted; simpl.
  rewrite skipn_app, skipn_all, Nat.sub_diag. reflexivity.
Qed.

(** C3, amended.  Past the block-gas check, if the reconciliation charge
    returns and leaves the block meter with less consumed than at the call,
    [DeliverTx] returns a non-nil error, also when the wrapped handler
    returned without one.  The error is the one the default handler builds
    for the payload [ErrorGasOverflow] with descriptor "tx gas summation":
    its registered root is [ErrPanic], the root of every generic
    abnormal-termination error, and its message contains the descriptor.
    The block meter stays as the charge left it. *)
Theorem DeliverTx_reports_backward_block_gas
        (txh : panicTxHandler) (tx : Tx) (req : RequestDeliverTx) (s : state_t) (m' : BM) :
  let o := fst (hDeliverTx (inner txh) tx req (world s)) in
  let w1 := snd (hDeliverTx (inner txh) tx req (world s)) in
  let e := panicError (ErrorGasOverflow "tx gas summation") (debugStack w1) in
  IsOutOfGas (blockGasMeter (world s)) = false ->
  ConsumeGas (GasConsumedToLimit (gasMeter w1)) "block gas meter" (blockGasMeter w1)
  = (m', None) ->
  (GasConsumed m' < GasConsumed (blockGasMeter (world s)))%Z ->
  DeliverTx txh tx req s
  = (Returned (fst (resultsOf zeroResponseDeliverTx o), Some e),
     noted s (withBlockGasMeter w1 m')
       [CallInner;
        BlockConsumeGas (GasConsumedToLimit (gasMeter w1)) "block gas meter";
        Recovered (ErrorGasOverflow "tx gas summation")])
  /\ rootCause e = ErrPanic
  /\ contains (errMessage e) "tx gas summation"
  /\ blockGasMeter (world (snd (DeliverTx txh tx req s))) = m'.
Proof.
  intros o w1 e Hgas Hcharge Hback.
  assert (Hrun : DeliverTx txh tx req s
                 = (Returned (fst (resultsOf zeroResponseDeliverTx o), Some e),
                    noted s (withBlockGasMeter w1 m')
                      [CallInner;
                       BlockConsumeGas (GasConsumedToLimit (gasMeter w1)) "block gas meter";
                       Recovered (ErrorGasOverflow "tx gas summation")])).
  { rewrite DeliverTx_runs by assumption. cbv zeta. fold o w1.
    unfold reconciliationFault, reconciled. rewrite Hcharge. simpl.
    apply Z.ltb_lt in Hback. rewrite Hback. reflexivity. }
  rewrite Hrun. repeat split.
  exists "recovered: {", ("}" ++ newline ++ "stack:" ++ newline ++ debugStack w1).
  reflexivity.
Qed.

(** C4.  Past the block-gas check and whatever the wrapped handler does
    (return, panic with [ErrorOutOfGas], panic with anything else), the
    block meter is charged exactly once: the history grows by the call of
    the handler, then the one charge of the transaction meter's
    consumed-to-limit, then at most the recovery of a panic, and the world
    is the handler's with that one charge applied.  A panic raised by the
    reconciliation step is the one recovered, after the charge, and
    [DeliverTx] returns the error the standard chain gives for it. *)
Theorem DeliverTx_reconciles_once
        (txh : panicTxHandler) (tx : Tx) (req : RequestDeliverTx) (s : state_t) :
  let o := fst (hDeliverTx (inner txh) tx req (world s)) in
  let w1 := snd (hDeliverTx (inner txh) tx req (world s)) in
  let s' := snd (DeliverTx txh tx req s) in
  let charge := BlockConsumeGas (GasConsumedToLimit (gasMeter w1)) "block gas meter" in
  IsOutOfGas (blockGasMeter (world s)) = false ->
  (exists tail,
      history s' = (history s ++ CallInner :: charge :: tail)%list
      /\ (tail = [] \/ exists r, tail = [Recovered r]))
  /\ filter isBlockConsumeGas (added s s') = [charge]
  /\ world s' = reconciled w1
  /\ (forall r,
        reconciliationFault (GasConsumed (blockGasMeter (world s))) w1 = Some r ->
        DeliverTx txh tx req s
        = (Returned (fst (resultsOf zeroResponseDeliverTx o),
                     Some (standardError r (reconciled w1))),
           noted s (reconciled w1) [CallInner; charge; Recovered r])).
Proof.
  intros o w1 s' charge Hgas. subst s'.
  rewrite DeliverTx_runs by assumption. cbv zeta. fold o w1 charge.
  pose proof (reconciliationFault_value (GasConsumed (blockGasMeter (world s))) w1)
    as Hvalue.
  destruct (reconciliationFault _ w1) as [r' |].
  - rewrite caught_value by congruence.
    simpl; rewrite added_noted; repeat split; eauto.
    intros r Hr. now inversion Hr.
  - destruct (caught (faultOf o)) as [r |];
      simpl; rewrite added_noted; repeat split; try discriminate; eauto.
Qed.

(** C9.  [SimulateTx] leaves the block meter as the wrapped handler left
    it, so unchanged when the handler does not touch it, and it charges
    nothing to it; it does not read it either: when the handler works the
    same whatever the block meter, so does [SimulateTx], with the same
    response and error. *)
Theorem SimulateTx_leaves_block_meter
        (txh : panicTxHandler) (sdkTx : Tx) (req : RequestSimulateTx) (s : state_t) :
  let h := hSimulateTx (inner txh) sdkTx req in
  let s' := snd (SimulateTx txh sdkTx req s) in
  blockGasMeter (world s') = blockGasMeter (snd (h (world s)))
  /\ (blockGasMeter (snd (h (world s))) = blockGasMeter (world s) ->
      blockGasMeter (world s') = blockGasMeter (world s))
  /\ filter isBlockConsumeGas (added s s') = []
  /\ (forall m : BM,
        h (withBlockGasMeter (world s) m)
        = (fst (h (world s)), withBlockGasMeter (snd (h (world s))) m) ->
        SimulateTx txh sdkTx req (withBlock s m)
        = (fst (SimulateTx txh sdkTx req s), withBlock s' m)).
Proof.
  intros h s'. subst s'. unfold SimulateTx. rewrite guarded_call. fold h.
  repeat split.
  - destruct (h (world s)) as [[v | []] w']; reflexivity.
  - intros Hsame. rewrite <- Hsame.
    destruct (h (world s)) as [[v | []] w']; reflexivity.
  - destruct (h (world s)) as [[v | []] w']; simpl; now rewrite added_noted.
  - intros m Hm. rewrite guarded_call. fold h. simpl. rewrite Hm.
    destruct (h (world s)) as [[v | []] w']; reflexivity.
Qed.

End Containment.

(** ** The claims about the recovery chain *)

Section StandardHandlers.
Context {TM BM App : Type} {txMeter : GasMeter TM} {blockMeter : GasMeter BM} {abci : ABCI}.

Local Abbreviation state_t := (State TM BM App).



(** C6.  The default middleware resolves every payload into a non-nil
    error with root [ErrPanic], whose message contains the payload's
    rendering and the stack text read when the handler runs; so the
    standard chain, out-of-gas middleware then default middleware, gives a
    non-nil error for every payload and every gas wanted. *)
Theorem default_middleware_resolves_everything (r : payload) (s : state_t) :
  let e := panicError r (debugStack (world s)) in
  processRecovery r newDefaultRecoveryMiddleware s = (Returned (Some e), s)
  /\ rootCause e = ErrPanic
  /\ contains (errMessage e) (fmt_v r)
  /\ contains (errMessage e) (debugStack (world s))
  /\ forall gasWanted, exists e',
      processRecovery r (newOutOfGasRecoveryMiddleware gasWanted newDefaultRecoveryMiddleware) s
      = (Returned (Some e'), s).
Proof.
  intros e. repeat split.
  - apply contains_middle.
  - unfold e, panicError, errMessage.
    exists ("recovered: " ++ fmt_v r ++ newline ++ "stack:" ++ newline), "".
    rewrite !append_assoc, append_empty. reflexivity.
  - intros gasWanted. rewrite standard_chain_resolves. eauto.
Qed.

End StandardHandlers.

Section Chains.
Variable St : Type.

Lemma processRecovery_cons (recoveryObj : payload) (handler : recoveryHandler St)
      (next : recoveryMiddleware St) (s : St) :
  processRecovery recoveryObj (newRecoveryMiddleware handler next) s
  = match handler recoveryObj s with
    | (Returned (Some e), s') => (Returned (Some e), s')
    | (Returned None, s') => processRecovery recoveryObj next s'
    | (Panicked r, s') => (Panicked r, s')
    end.
Proof.
  simpl. unfold bind.
  destruct (handler recoveryObj s) as [[[e |] | r] s']; reflexivity.
Qed.

Lemma processRecovery_chainOf (recoveryObj : payload) (handlers : list (recoveryHandler St)) :
  forall s, processRecovery recoveryObj (chainOf handlers) s
            = resolveInOrder recoveryObj handlers s.
Proof.
  induction handlers as [| handler rest IH]; intros s.
  - reflexivity.
  - change (chainOf (handler :: rest))
      with (newRecoveryMiddleware handler (chainOf rest)).
    rewrite processRecovery_cons. simpl.
    destruct (handler recoveryObj s) as [[[e |] | r] s']; auto.
Qed.

End Chains.

Lemma processRecovery_counting (recoveryObj : payload)
      (answers : list (payload -> option error)) :
  forall (i : nat) (calls : list nat),
    processRecovery recoveryObj (chainOf (countingHandlers i answers)) calls
    = (Returned (firstError recoveryObj answers),
       (calls ++ seq i (asked recoveryObj answers))%list).
Proof.
  induction answers as [| answer rest IH]; intros i calls.
  - simpl. now rewrite app_nil_r.
  - change (chainOf (countingHandlers i (answer :: rest)))
      with (newRecoveryMiddleware (countingHandler i answer)
              (chainOf (countingHandlers (S i) rest))).
    rewrite processRecovery_cons.
    unfold countingHandler at 1, bind, modify, ret. simpl.
    destruct (answer recoveryObj) as [e |].
    + reflexivity.
    + rewrite IH. simpl. now rewrite <- app_assoc.
Qed.

Lemma count_occ_seq (n j : nat) :
  count_occ Nat.eq_dec (seq O n) j = if (j <? n)%nat then 1%nat else 0%nat.
Proof.
  destruct (j <? n)%nat eqn:E.
  - apply Nat.ltb_lt in E.
    apply (proj1 (NoDup_count_occ' Nat.eq_dec (seq O n)) (seq_NoDup n O)).
    apply in_seq. lia.
  - apply Nat.ltb_ge in E. apply count_occ_not_In. rewrite in_seq. lia.
Qed.

(** C8.  [processRecovery] gives nil for the nil chain and, for the chain
    built from a list of handlers, what trying the handlers in order gives:
    the first non-nil error, the state threaded through the handlers in
    order.  With call-counting handlers, the handlers up to and including
    the first that answers with an error are each called exactly once, in
    order, and those after it are not called.  [processRecovery] is total:
    it has a result on every chain, and the result of a non-nil chain is the
    result of its head, or of the rest of the chain in the state the head
    leaves when the head gives no error. *)
Theorem processRecovery_applies_handlers_in_order :
  (forall St (recoveryObj : payload) (s : St),
      processRecovery recoveryObj nilMiddleware s = (Returned None, s))
  /\ (forall St (recoveryObj : payload) (handlers : list (recoveryHandler St)) (s : St),
      processRecovery recoveryObj (chainOf handlers) s
      = resolveInOrder recoveryObj handlers s)
  /\ (forall (recoveryObj : payload) (answers : list (payload -> option error)),
      let run := processRecovery recoveryObj (chainOf (countingHandlers O answers)) [] in
      fst run = Returned (firstError recoveryObj answers)
      /\ snd run = seq O (asked recoveryObj answers)
      /\ (asked recoveryObj answers <= List.length answers)%nat
      /\ forall j,
          count_occ Nat.eq_dec (snd run) j
          = if (j <? asked recoveryObj answers)%nat then 1%nat else 0%nat)
  /\ (forall St (recoveryObj : payload) (middleware : recoveryMiddleware St) (s : St),
      exists o s', processRecovery recoveryObj middleware s = (o, s'))
  /\ (forall St (recoveryObj : payload) (handler : recoveryHandler St)
             (next : recoveryMiddleware St) (s : St),
      processRecovery recoveryObj (newRecoveryMiddleware handler next) s
      = match handler recoveryObj s with
        | (Returned (Some e), s') => (Returned (Some e), s')
        | (Returned None, s') => processRecovery recoveryObj next s'
        | (Panicked r, s') => (Panicked r, s')
        end).
Proof.
  split; [| split; [| split; [| split]]].
  - reflexivity.
  - intros. apply processRecovery_chainOf.
  - intros recoveryObj answers run. subst run.
    rewrite processRecovery_counting. simpl. repeat split.
    + induction answers as [| answer rest IH]; simpl; [lia |].
      destruct (answer recoveryObj); lia.
    + intros j. rewrite count_occ_seq. reflexivity.
  - intros St recoveryObj middleware s.
    destruct (processRecovery recoveryObj middleware s) as [o s']. eauto.
  - intros. apply processRecovery_cons.
Qed.

(** ** Concrete runs *)



(** C2 on the scenario of the spec: block meter at 500, transaction limit
    200, the handler uses 150 and succeeds; the block meter ends at 650. *)
Lemma DeliverTx_charges_block_meter_run :
  let txh := stubTxHandler 150 None "ok" in
  let s := initState {| limit := 200; consumed := 0 |} {| limit := 1000; consumed := 500 |} in
  IsOutOfGas (blockGasMeter (world s)) = false
  /\ GasConsumed (blockGasMeter (world (snd (DeliverTx txh "tx" "req" s)))) = 650%Z.
Proof.
  intros txh s. split; [reflexivity |].
  exact (proj1 (DeliverTx_charges_block_meter txh "tx" "req" s ("ok", None)
                  {| gasMeter := {| limit := 200; consumed := 150 |};
                     blockGasMeter := {| limit := 1000; consumed := 500 |};
                     debugStack := "goroutine 1 [running]"; app := 1%nat |}
                  eq_refl eq_refl eq_refl eq_refl)).
Defined.

(** C3 as first stated fails on this run.  The block meter's counter
    wraps: at 2^64 - 10, a charge of 150 leaves 140, less than at the call.
    The handler succeeds and an error is returned, but its kind is not one
    of its own: its registered root is [ErrPanic], and it is the very error
    the default handler gives for an unrecognized payload printed as
    "{tx gas summation}". *)
Lemma backward_block_gas_error_is_generic :
  let txh := stubTxHandler 150 None "ok" in
  let s := initState {| limit := 200; consumed := 0 |} {| counter := 2 ^ 64 - 10 |} in
  exists e s',
    DeliverTx txh "tx" "req" s = (Returned ("ok", Some e), s')
    /\ (GasConsumed (blockGasMeter (world s')) < GasConsumed (blockGasMeter (world s)))%Z
    /\ rootCause e = ErrPanic
    /\ rootCause e <> ErrOutOfGas
    /\ processRecovery (OtherPanic "{tx gas summation}") newDefaultRecoveryMiddleware s'
       = (Returned (Some e), s').
Proof.
  intros txh s. eexists _, _.
  split; [vm_compute; reflexivity |].
  split; [vm_compute; reflexivity |].
  split; [reflexivity |].
  split; [discriminate | reflexivity].
Qed.

(** C3, amended, on the same run. *)
Lemma DeliverTx_reports_backward_block_gas_run :
  let txh := stubTxHandler 150 None "ok" in
  let s := initState {| limit := 200; consumed := 0 |} {| counter := 2 ^ 64 - 10 |} in
  fst (DeliverTx txh "tx" "req" s)
  = Returned ("ok", Some (wrappedError ErrPanic
                            ("recovered: {tx gas summation}" ++ newline ++ "stack:"
                             ++ newline ++ "goroutine 1 [running]")))
  /\ blockGasMeter (world (snd (DeliverTx txh "tx" "req" s))) = {| counter := 140 |}.
Proof.
  intros txh s.
  destruct (DeliverTx_reports_backward_block_gas txh "tx" "req" s {| counter := 140 |})
    as (Hrun & _ & _ & Hmeter); [reflexivity | reflexivity | reflexivity |].
  split; [now rewrite Hrun | exact Hmeter].
Defined.

(** C4 on a run: the handler panics and the charge then takes the block
    meter past its limit; there is one charge, and the panic recovered is
    the one of the charge. *)
Lemma DeliverTx_reconciles_once_run :
  let txh := stubTxHandler 150 (Some (OtherPanic "boom")) "ok" in
  let s := initState {| limit := 200; consumed := 0 |} {| limit := 1000; consumed := 900 |} in
  let s' := snd (DeliverTx txh "tx" "req" s) in
  filter isBlockConsumeGas (added s s') = [BlockConsumeGas 150 "block gas meter"]
  /\ history s' = [CallInner; BlockConsumeGas 150 "block gas meter";
                   Recovered (ErrorOutOfGas "block gas meter")]
  /\ fst (DeliverTx txh "tx" "req" s)
     = Returned ("", Some (wrappedError ErrOutOfGas
         "out of gas in location: block gas meter; gasWanted: 200, gasUsed: 150")).
Proof.
  intros txh s s'.
  destruct (DeliverTx_reconciles_once txh "tx" "req" s) as (_ & Hone & _ & Hfold);
    [reflexivity |].
  split; [exact Hone |].
  specialize (Hfold (ErrorOutOfGas "block gas meter") eq_refl).
  subst s'. rewrite Hfold. split; reflexivity.
Defined.


(** C7 on a run: the block meter is at its limit, the stub is not called
    (its counter stays at 0) and the state does not change. *)
Lemma DeliverTx_no_block_gas_skips_handler_run :
  let txh := stubTxHandler 150 None "ok" in
  let s := initState {| limit := 200; consumed := 0 |} {| limit := 1000; consumed := 1000 |} in
  IsOutOfGas (blockGasMeter (world s)) = true
  /\ DeliverTx txh "tx" "req" s
     = (Returned ("", Some (wrappedError ErrOutOfGas "no block gas left to run tx")), s)
  /\ app (world (snd (DeliverTx txh "tx" "req" s))) = O.
Proof.
  intros txh s. split; [reflexivity |].
  destruct (DeliverTx_no_block_gas_skips_handler txh "tx" "req" s) as (Hrun & _);
    [reflexivity |].
  split; [exact Hrun | now rewrite Hrun].
Defined.

(** C10 on a run: the block meter is past its limit and both meters stay
    as they were. *)
Lemma DeliverTx_no_block_gas_charges_nothing_run :
  let txh := stubTxHandler 150 None "ok" in
  let s := initState {| limit := 200; consumed := 30 |} {| limit := 1000; consumed := 1200 |} in
  let s' := snd (DeliverTx txh "tx" "req" s) in
  IsOutOfGas (blockGasMeter (world s)) = true
  /\ blockGasMeter (world s') = {| limit := 1000; consumed := 1200 |}
  /\ gasMeter (world s') = {| limit := 200; consumed := 30 |}.
Proof.
  intros txh s s'. split; [reflexivity |].
  destruct (DeliverTx_no_block_gas_charges_nothing txh "tx" "req" s)
    as (_ & Hb & Ht & _); [reflexivity |].
  split; [exact Hb | exact Ht].
Defined.

(** C9 on a run: the stub does not touch the block meter, [SimulateTx]
    leaves it as it was and runs the same with another block meter. *)
Lemma SimulateTx_leaves_block_meter_run :
  let txh := stubTxHandler 150 (Some (OtherPanic "boom")) "ok" in
  let s := initState {| limit := 100; consumed := 0 |} {| limit := 1000; consumed := 900 |} in
  blockGasMeter (world (snd (SimulateTx txh "tx" "req" s))) = {| limit := 1000; consumed := 900 |}
  /\ fst (SimulateTx txh "tx" "req" (withBlock s {| limit := 7; consumed := 3 |}))
     = fst (SimulateTx txh "tx" "req" s).
Proof.
  intros txh s.
  destruct (SimulateTx_leaves_block_meter txh "tx" "req" s) as (_ & Hsame & _ & Hread).
  split; [apply Hsame; reflexivity |].
  rewrite (Hread {| limit := 7; consumed := 3 |}); reflexivity.
Defined.

(** * Further properties of the middleware *)

Section Transparency.
Context {TM BM App : Type} {txMeter : GasMeter TM} {blockMeter : GasMeter BM} {abci : ABCI}.

Local Abbreviation state_t := (State TM BM App).

(** X1.  When the wrapped handler returns, [CheckTx] and [SimulateTx]
    return its response and its error as they are, a non-nil error
    included, and leave the world as the handler left it. *)
Theorem CheckTx_SimulateTx_pass_through (txh : panicTxHandler) :
  (forall tx req (s : state_t) v w',
      hCheckTx (inner txh) tx req (world s) = (Returned v, w') ->
      CheckTx txh tx req s = (Returned v, noted s w' [CallInner]))
  /\ (forall sdkTx req (s : state_t) v w',
      hSimulateTx (inner txh) sdkTx req (world s) = (Returned v, w') ->
      SimulateTx txh sdkTx req s = (Returned v, noted s w' [CallInner])).
Proof.
  split; intros tx req s v w' Hh.
  - unfold CheckTx. now rewrite guarded_call, Hh.
  - unfold SimulateTx. now rewrite guarded_call, Hh.
Qed.

(** X2.  Past the block-gas check, when the wrapped handler returns, the
    charge of the block meter does not panic and the block meter has then
    consumed no less than at the call, [DeliverTx] returns the handler's
    response and error as they are; the world is the handler's with the
    block meter as the charge left it. *)
Theorem DeliverTx_pass_through
        (txh : panicTxHandler) (tx : Tx) (req : RequestDeliverTx) (s : state_t)
        (v : ResponseDeliverTx * option error) (w1 : World TM BM App) (m' : BM) :
  IsOutOfGas (blockGasMeter (world s)) = false ->
  hDeliverTx (inner txh) tx req (world s) = (Returned v, w1) ->
  ConsumeGas (GasConsumedToLimit (gasMeter w1)) "block gas meter" (blockGasMeter w1)
  = (m', None) ->
  (GasConsumed (blockGasMeter (world s)) <= GasConsumed m')%Z ->
  DeliverTx txh tx req s
  = (Returned v,
     noted s (withBlockGasMeter w1 m')
       [CallInner; BlockConsumeGas (GasConsumedToLimit (gasMeter w1)) "block gas meter"]).
Proof.
  intros Hgas Hh Hcharge Hmono.
  rewrite DeliverTx_runs by assumption. cbv zeta. rewrite Hh. simpl.
  unfold reconciliationFault, reconciled. rewrite Hcharge. simpl.
  replace (GasConsumed m' <? GasConsumed (blockGasMeter (world s)))%Z with false
    by (symmetry; apply Z.ltb_ge; exact Hmono).
  reflexivity.
Qed.

(** X3.  When an entry point returns a nil error.  [CheckTx] and
    [SimulateTx] do exactly when the wrapped handler returned with a nil
    error or panicked with the nil value.  [DeliverTx] does exactly when
    the block meter was not out of gas, the reconciliation step raised
    nothing, and the handler returned with a nil error or panicked with
    the nil value. *)
Theorem nil_error_exactly_when (txh : panicTxHandler) :
  (forall tx req (s : state_t),
      (exists rs s', CheckTx txh tx req s = (Returned (rs, None), s'))
      <-> ((exists rs w', hCheckTx (inner txh) tx req (world s) = (Returned (rs, None), w'))
           \/ (exists w', hCheckTx (inner txh) tx req (world s) = (Panicked NilValue, w'))))
  /\ (forall sdkTx req (s : state_t),
      (exists rs s', SimulateTx txh sdkTx req s = (Returned (rs, None), s'))
      <-> ((exists rs w', hSimulateTx (inner txh) sdkTx req (world s)
                          = (Returned (rs, None), w'))
           \/ (exists w', hSimulateTx (inner txh) sdkTx req (world s)
                          = (Panicked NilValue, w'))))
  /\ (forall tx req (s : state_t),
      (exists rs s', DeliverTx txh tx req s = (Returned (rs, None), s'))
      <-> (IsOutOfGas (blockGasMeter (world s)) = false
           /\ reconciliationFault (GasConsumed (blockGasMeter (world s)))
                (snd (hDeliverTx (inner txh) tx req (world s))) = None
           /\ ((exists rs, fst (hDeliverTx (inner txh) tx req (world s))
                           = Returned (rs, None))
               \/ fst (hDeliverTx (inner txh) tx req (world s)) = Panicked NilValue))).
Proof.
  split; [| split].
  - intros tx req s. unfold CheckTx. rewrite guarded_call.
    destruct (hCheckTx _ _ _ _) as [[[rs e] | r] w']; [| destruct r]; split;
      try (intros (rs' & s' & H); inversion H; subst; now eauto);
      try (intros [(rs' & w'' & H) | (w'' & H)]; inversion H; subst; now eauto).
  - intros tx req s. unfold SimulateTx. rewrite guarded_call.
    destruct (hSimulateTx _ _ _ _) as [[[rs e] | r] w']; [| destruct r]; split;
      try (intros (rs' & s' & H); inversion H; subst; now eauto);
      try (intros [(rs' & w'' & H) | (w'' & H)]; inversion H; subst; now eauto).
  - intros tx req s.
    destruct (IsOutOfGas (blockGasMeter (world s))) eqn:Hgas.
    + rewrite DeliverTx_short_circuit by assumption. split.
      * intros (rs' & s' & H). discriminate H.
      * intros [H _]. discriminate H.
    + rewrite DeliverTx_runs by assumption. cbv zeta.
      pose proof (reconciliationFault_value (GasConsumed (blockGasMeter (world s)))
                    (snd (hDeliverTx (inner txh) tx req (world s)))) as Hvalue.
      destruct (reconciliationFault _ _) as [r' |].
      * rewrite caught_value by congruence. split.
        -- intros (rs' & s' & H). discriminate H.
        -- intros (_ & H & _). discriminate H.
      * destruct (fst (hDeliverTx (inner txh) tx req (world s))) as [[rs e] | r];
          [| destruct r]; simpl; split;
          try (intros (rs' & s' & H); inversion H; subst; now eauto 6);
          try (intros (_ & _ & [(rs' & H) | H]); inversion H; subst; now eauto).
Qed.

Lemma standardError_ignores_block_meter (r : payload) (w : World TM BM App) (m : BM) :
  standardError r (withBlockGasMeter w m) = standardError r w.
Proof. destruct r; reflexivity. Qed.

(** X4.  [CheckTx] and [SimulateTx] leave the whole world (both meters,
    the application state) as the wrapped handler left it, also when they
    recover a panic: what the handler did before it panicked stays.
    [CheckTx] charges nothing to the block meter and does not read it: when
    the handler works the same whatever the block meter, so does
    [CheckTx]. *)
Theorem CheckTx_leaves_world_to_handler
        (txh : panicTxHandler) (tx : Tx) (req : RequestCheckTx) (s : state_t) :
  let h := hCheckTx (inner txh) tx req in
  let s' := snd (CheckTx txh tx req s) in
  world s' = snd (h (world s))
  /\ (forall sdkTx req',
        world (snd (SimulateTx txh sdkTx req' s))
        = snd (hSimulateTx (inner txh) sdkTx req' (world s)))
  /\ filter isBlockConsumeGas (added s s') = []
  /\ (forall m : BM,
        h (withBlockGasMeter (world s) m)
        = (fst (h (world s)), withBlockGasMeter (snd (h (world s))) m) ->
        CheckTx txh tx req (withBlock s m)
        = (fst (CheckTx txh tx req s), withBlock s' m)).
Proof.
  intros h s'. subst s'. unfold CheckTx, SimulateTx. rewrite guarded_call. fold h.
  split; [| split; [| split]].
  - destruct (h (world s)) as [[v | []] w']; reflexivity.
  - intros sdkTx req'. rewrite guarded_call.
    destruct (hSimulateTx _ _ _ _) as [[v | []] w']; reflexivity.
  - destruct (h (world s)) as [[v | []] w']; simpl; now rewrite added_noted.
  - intros m Hm. rewrite guarded_call. fold h. simpl. rewrite Hm.
    destruct (h (world s)) as [[v | r] w']; simpl.
    + reflexivity.
    + destruct r; simpl; now rewrite ?standardError_ignores_block_meter.
Qed.

(** X5.  [DeliverTx] itself changes nothing but the block meter: the
    transaction meter, the stack text and the application state it leaves
    are those the wrapped handler left, or those of the call when it stops
    at the block-gas check; and the block meter is then the handler's with
    the one charge applied. *)
Theorem DeliverTx_touches_only_block_meter
        (txh : panicTxHandler) (tx : Tx) (req : RequestDeliverTx) (s : state_t) :
  let w1 := if IsOutOfGas (blockGasMeter (world s)) then world s
            else snd (hDeliverTx (inner txh) tx req (world s)) in
  let s' := snd (DeliverTx txh tx req s) in
  gasMeter (world s') = gasMeter w1
  /\ debugStack (world s') = debugStack w1
  /\ app (world s') = app w1
  /\ blockGasMeter (world s')
     = if IsOutOfGas (blockGasMeter (world s)) then blockGasMeter (world s)
       else fst (ConsumeGas (GasConsumedToLimit (gasMeter w1)) "block gas meter"
                   (blockGasMeter w1)).
Proof.
  intros w1 s'. subst w1 s'.
  destruct (IsOutOfGas (blockGasMeter (world s))) eqn:Hgas.
  - rewrite DeliverTx_short_circuit by assumption. simpl. auto.
  - rewrite DeliverTx_runs by assumption. cbv zeta.
    destruct (caught _) as [r' |]; simpl; auto.
Qed.

(** X6.  The wrapped handler is called exactly once by [CheckTx] and
    [SimulateTx], and by [DeliverTx] unless it stops at the block-gas check:
    it is not called again after a panic.  In [CheckTx] and [SimulateTx]
    the recovery chain is run exactly when the handler panicked with a
    non-nil value, once, for that value; it is not run for a panic with
    the nil value. *)
Theorem inner_handler_called_once (txh : panicTxHandler) :
  (forall tx req (s : state_t),
      let s' := snd (CheckTx txh tx req s) in
      filter isCallInner (added s s') = [CallInner]
      /\ filter isRecovered (added s s')
         = match caught (faultOf (fst (hCheckTx (inner txh) tx req (world s)))) with
           | Some r => [Recovered r]
           | None => []
           end)
  /\ (forall sdkTx req (s : state_t),
      let s' := snd (SimulateTx txh sdkTx req s) in
      filter isCallInner (added s s') = [CallInner]
      /\ filter isRecovered (added s s')
         = match caught (faultOf (fst (hSimulateTx (inner txh) sdkTx req (world s)))) with
           | Some r => [Recovered r]
           | None => []
           end)
  /\ (forall tx req (s : state_t),
      let s' := snd (DeliverTx txh tx req s) in
      filter isCallInner (added s s')
      = if IsOutOfGas (blockGasMeter (world s)) then [] else [CallInner]).
Proof.
  split; [| split].
  - intros tx req s s'. subst s'. unfold CheckTx. rewrite guarded_call.
    destruct (hCheckTx _ _ _ _) as [[v | []] w']; simpl; rewrite added_noted; auto.
  - intros tx req s s'. subst s'. unfold SimulateTx. rewrite guarded_call.
    destruct (hSimulateTx _ _ _ _) as [[v | []] w']; simpl; rewrite added_noted; auto.
  - intros tx req s s'. subst s'.
    destruct (IsOutOfGas (blockGasMeter (world s))) eqn:Hgas.
    + rewrite DeliverTx_short_circuit by assumption. unfold added. simpl.
      now rewrite skipn_all.
    + rewrite DeliverTx_runs by assumption. cbv zeta.
      destruct (caught _) as [r' |]; simpl; rewrite added_noted; reflexivity.
Qed.

(** X8.  The root of the error the standard chain returns tells the two
    kinds of panic apart: it is [ErrOutOfGas] exactly for a payload
    [ErrorOutOfGas], and [ErrPanic] for every other payload,
    [ErrorGasOverflow] included. *)
Theorem standard_chain_error_kind (gasWanted : Gas) (r : payload) (s : state_t) :
  exists e,
    processRecovery r (newOutOfGasRecoveryMiddleware gasWanted newDefaultRecoveryMiddleware) s
    = (Returned (Some e), s)
    /\ (rootCause e = ErrOutOfGas <-> exists d, r = ErrorOutOfGas d)
    /\ (rootCause e = ErrPanic <-> forall d, r <> ErrorOutOfGas d).
Proof.
  rewrite standard_chain_resolves. eexists. split; [reflexivity |].
  destruct r as [d | d | t |]; simpl; split; split;
    try discriminate; eauto;
    try (intros [d' H]; discriminate H).
  intros H. exfalso. now apply (H d).
Qed.

End Transparency.

(** ** Further properties of the recovery chain *)

(** X9.  Chains compose: resolving with the chain of two lists of handlers
    put end to end is resolving with the chain of the first list and, only
    if that gives no error, going on with the chain of the second list in
    the state the first one left.  An error or a panic of the first part
    ends the resolution: no handler of the second part runs. *)
Theorem processRecovery_app (St : Type) (recoveryObj : payload)
        (first second : list (recoveryHandler St)) (s : St) :
  processRecovery recoveryObj (chainOf (first ++ second)) s
  = match processRecovery recoveryObj (chainOf first) s with
    | (Returned None, s') => processRecovery recoveryObj (chainOf second) s'
    | (Returned (Some e), s') => (Returned (Some e), s')
    | (Panicked r, s') => (Panicked r, s')
    end.
Proof.
  revert s. induction first as [| handler rest IH]; intros s.
  - reflexivity.
  - change (chainOf ((handler :: rest) ++ second))
      with (newRecoveryMiddleware handler (chainOf (rest ++ second))).
    change (chainOf (handler :: rest))
      with (newRecoveryMiddleware handler (chainOf rest)).
    rewrite !processRecovery_cons.
    destruct (handler recoveryObj s) as [[[e |] | r] s']; auto.
Qed.

(** X10.  [processRecovery] does not catch a panic of a handler: when the
    handlers before it give no error and it panics, the resolution panics
    with its payload in the state it left, and the handlers after it are
    not run. *)
Theorem processRecovery_handler_panic (St : Type) (recoveryObj : payload)
        (before after : list (recoveryHandler St)) (handler : recoveryHandler St)
        (s s1 s2 : St) (r : payload) :
  processRecovery recoveryObj (chainOf before) s = (Returned None, s1) ->
  handler recoveryObj s1 = (Panicked r, s2) ->
  processRecovery recoveryObj (chainOf (before ++ handler :: after)) s = (Panicked r, s2).
Proof.
  revert s. induction before as [| h rest IH]; intros s Hbefore Hpanic.
  - simpl in Hbefore. inversion Hbefore; subst.
    change (chainOf ([] ++ handler :: after))
      with (newRecoveryMiddleware handler (chainOf after)).
    now rewrite processRecovery_cons, Hpanic.
  - change (chainOf ((h :: rest) ++ handler :: after))
      with (newRecoveryMiddleware h (chainOf (rest ++ handler :: after))).
    change (chainOf (h :: rest)) with (newRecoveryMiddleware h (chainOf rest)) in Hbefore.
    rewrite processRecovery_cons in *.
    destruct (h recoveryObj s) as [[[e |] | r'] s']; try discriminate.
    now apply IH.
Qed.

(** ** Further concrete runs *)

(** X1 on a run: the handler returns an error of its own and [CheckTx]
    hands it on with the response. *)
Lemma CheckTx_SimulateTx_pass_through_run :
  let txh := NewPanicTxMiddleware (answering "refused" (Some ErrOutOfGas)) in
  let s := initState {| limit := 100; consumed := 0 |} {| limit := 1000; consumed := 500 |} in
  fst (CheckTx txh "tx" "req" s) = Returned ("refused", Some ErrOutOfGas)
  /\ fst (SimulateTx txh "tx" "req" s) = Returned ("refused", Some ErrOutOfGas).
Proof.
  intros txh s.
  destruct (CheckTx_SimulateTx_pass_through txh) as [HC HS].
  split.
  - rewrite (HC "tx" "req" s ("refused", Some ErrOutOfGas) (world s)); reflexivity.
  - rewrite (HS "tx" "req" s ("refused", Some ErrOutOfGas) (world s)); reflexivity.
Defined.

(** X2 on a run: the stub uses 150 of 200 and the block meter goes from 500
    to 650 of 1000. *)
Lemma DeliverTx_pass_through_run :
  let txh := stubTxHandler 150 None "ok" in
  let s := initState {| limit := 200; consumed := 0 |} {| limit := 1000; consumed := 500 |} in
  fst (DeliverTx txh "tx" "req" s) = Returned ("ok", None)
  /\ blockGasMeter (world (snd (DeliverTx txh "tx" "req" s)))
     = {| limit := 1000; consumed := 650 |}.
Proof.
  intros txh s.
  rewrite (DeliverTx_pass_through txh "tx" "req" s ("ok", None)
             {| gasMeter := {| limit := 200; consumed := 150 |};
                blockGasMeter := {| limit := 1000; consumed := 500 |};
                debugStack := "goroutine 1 [running]"; app := 1%nat |}
             {| limit := 1000; consumed := 650 |});
    first [reflexivity | discriminate | split; reflexivity].
Defined.

(** X4 on a run: the stub consumes 150 of transaction gas and panics; the
    world [CheckTx] leaves has that consumption and the counted call. *)
Lemma CheckTx_leaves_world_to_handler_run :
  let txh := stubTxHandler 150 (Some (OtherPanic "boom")) "ok" in
  let s := initState {| limit := 200; consumed := 0 |} {| limit := 1000; consumed := 900 |} in
  gasMeter (world (snd (CheckTx txh "tx" "req" s))) = {| limit := 200; consumed := 150 |}
  /\ app (world (snd (CheckTx txh "tx" "req" s))) = 1%nat
  /\ fst (CheckTx txh "tx" "req" (withBlock s {| limit := 7; consumed := 3 |}))
     = fst (CheckTx txh "tx" "req" s).
Proof.
  intros txh s.
  destruct (CheckTx_leaves_world_to_handler txh "tx" "req" s) as (Hworld & _ & _ & Hread).
  rewrite Hworld. split; [reflexivity | split; [reflexivity |]].
  rewrite (Hread {| limit := 7; consumed := 3 |}); reflexivity.
Defined.

(** X10 on a run with call-counting handlers: handler 0 gives no error, the
    next handler panics, handler 2 is not called. *)
Lemma processRecovery_handler_panic_run :
  processRecovery (OtherPanic "boom")
    (chainOf ([countingHandler 0 (fun _ => None)]
              ++ (fun _ => panic (OtherPanic "handler"))
              :: [countingHandler 2 (fun _ => Some ErrPanic)])) []
  = (Panicked (OtherPanic "handler"), [0%nat]).
Proof.
  apply (processRecovery_handler_panic (list nat) (OtherPanic "boom")
           [countingHandler 0 (fun _ => None)]
           [countingHandler 2 (fun _ => Some ErrPanic)]
           (fun _ => panic (OtherPanic "handler")) [] [0%nat] [0%nat]);
    reflexivity.
Defined.
